(** * delta-io website: the "The Latest" section of the index page

    A shallow embedding of
    [src/components/pages/index/LatestUpdateSection/index.jsx] and of the
    front matter of the blog documents, with the properties the
    specification states about them.

    Conventions.
    - A JavaScript string is a [string]: the bytes of the source literal
      (UTF-8), so a non-ASCII character such as U+2019 is three bytes.
    - An object literal is the list of its properties in source order.
    - A module-level binding lives in a [World], next to the host's clock
      and random source; components are computations in a state monad
      over it, so that "reads no time, draws no random number, writes no
      module state" are statements about code and not about notation. *)

From Stdlib Require Import String Ascii List Sorted Permutation ZArith Bool Lia.
From ExtLib Require Import Structures.Monad Structures.MonadState.
From ExtLib Require Import Data.Monads.StateMonad.
Import ListNotations.
Import MonadNotation.
Local Open Scope string_scope.
Local Open Scope monad_scope.

(** ** JavaScript values *)

Module JS.

(** The values the component handles: strings, the value a bundler
    binds to [import x from "./x.png"] (kept as its module specifier),
    and [undefined] for a property that is not there. *)
Inductive Value : Type :=
| Undefined
| Str (s : string)
| Asset (specifier : string).

(** An object literal [{ k1: v1, k2: v2 }]. *)
Definition Object : Type := list (string * Value).

(** Property access [o.k]. *)
Fixpoint get (k : string) (o : Object) : Value :=
  match o with
  | [] => Undefined
  | (k', v) :: rest => if String.eqb k k' then v else get k rest
  end.

(** [Object.keys(o)]. *)
Definition keys (o : Object) : list string := map fst o.

End JS.

(** ** The module [LatestUpdateSection/index.jsx] *)

(** [import schemaEnforcement from "./schemaEnforcement.png"] and the four
    imports after it. *)
Definition schemaEnforcement : JS.Value := JS.Asset "./schemaEnforcement.png".
Definition thumbnailDeltaSharingCDF : JS.Value := JS.Asset "./delta-sharing-cdf.png".
Definition versionPandasDataset : JS.Value := JS.Asset "./versionPandasDataset.png".
Definition howToCreateDeltaLakeTable : JS.Value := JS.Asset "./create-delta-lake-table.png".
Definition pysparkSaveModes : JS.Value := JS.Asset "./pysparkSaveModes.png".

(** [const updates = [ ... ]]. *)
Definition updates : list JS.Object :=
  [ [ ("title", JS.Str "Delta Lake Schema Enforcement");
      ("thumbnail", schemaEnforcement);
      ("url", JS.Str "/blog/2022-11-16-delta-lake-schema-enforcement/") ];
    [ ("title",
       JS.Str "Why PySpark append and overwrite write operations are safer in Delta Lake than Parquet tables");
      ("thumbnail", pysparkSaveModes);
      ("url", JS.Str "/blog/2022-11-01-pyspark-save-mode-append-overwrite-error/") ];
    [ ("title", JS.Str "How to Create Delta Lake tables");
      ("thumbnail", howToCreateDeltaLakeTable);
      ("url", JS.Str "/blog/2022-10-25-create-delta-lake-tables/") ];
    [ ("title", JS.Str "How to Version Your Data with pandas and Delta Lake");
      ("thumbnail", versionPandasDataset);
      ("url", JS.Str "/blog/2022-10-15-version-pandas-dataset/") ];
    [ ("title", JS.Str "Sharing a Delta Table’s Change Data Feed with Delta Sharing 0.5.0");
      ("thumbnail", thumbnailDeltaSharingCDF);
      ("url", JS.Str "/blog/2022-10-10-delta-sharing-0-5-0-released/") ] ].


(** ** Host state and module state *)

(** What a component could observe besides its arguments: the host's clock
    ([Date.now()]), its random source ([Math.random()]) and the array bound
    to [updates] when the module was evaluated.  The array is one shared
    object: every invocation sees the binding held here. *)
Record World : Type := mkWorld {
  clock : Z;
  entropy : Z;
  module_updates : list JS.Object
}.

(** Evaluating the module body once, at whatever time and random state the
    host is in: the imports, then [const updates = [...]]. *)
Definition load (now seed : Z) : World :=
  {| clock := now; entropy := seed; module_updates := updates |}.

(** ** Themes and elements *)

(** The part of the styled-components theme the module reads:
    [theme.light.bg]. *)
Record Palette : Type := mkPalette { bg : JS.Value }.
Record Theme : Type := mkTheme { light : Palette }.

(** Props of [<Section ...>] as the module passes them. *)
Record SectionProps : Type := mkSectionProps {
  background : Theme -> JS.Value;
  title : string;
  titleSize : string;
  centeredHeader : bool;
  padding : string
}.

(** Props of [<ImageStrip ...>]; [className] is what a styled wrapper adds
    (the rule sets attached to the element), empty when none is passed. *)
Record ImageStripProps : Type := mkImageStripProps {
  items : list JS.Object;
  className : list string
}.

(** The React elements the module creates. *)
#[warnings="-register-all"] Inductive Element : Type :=
| SectionElement (props : SectionProps) (children : list Element)
| CenteredImageStripElement (props : ImageStripProps).

(** [const LatestUpdateSection = () => ( <Section ...> ... </Section> )].
    The arrow function declares no parameter: whatever React passes is
    dropped.  Its body reads the module binding [updates] and nothing
    else. *)
Definition LatestUpdateSection (_arguments : list JS.Value) : state World Element :=
  items_ <- gets module_updates ;;
  ret (SectionElement
         {| background := fun theme => bg (light theme);
            title := "The Latest";
            titleSize := "h5";
            centeredHeader := true;
            padding := "xxxl" |}
         [CenteredImageStripElement {| items := items_; className := [] |}]).

(** ** Histories *)

(** What can happen between two renders: time passes, the host draws a
    random number, or the component is invoked. *)
Inductive Event : Type :=
| Tick (now : Z)
| Draw (seed : Z)
| Invoke (arguments : list JS.Value).

Definition step (w : World) (ev : Event) : World :=
  match ev with
  | Tick now => {| clock := now; entropy := entropy w; module_updates := module_updates w |}
  | Draw seed => {| clock := clock w; entropy := seed; module_updates := module_updates w |}
  | Invoke arguments => execState (LatestUpdateSection arguments) w
  end.

Definition run (history : list Event) (w : World) : World :=
  fold_left step history w.

(** ** Rendered output *)

(** What a component renders to: text, images, links, headings, and the two
    containers (a strip of cards, a themed padded block). *)
#[warnings="-register-all"] Inductive View : Type :=
| Text (content : JS.Value)
| Image (src : JS.Value)
| Link (href : JS.Value) (body : list View)
| Heading (size : string) (centered : bool) (body : list View)
| Strip (classes : list string) (body : list View)
| Block (fill : JS.Value) (pad : string) (body : list View).

(** The links of a view, in document order. *)
Fixpoint cards (v : View) : list View :=
  match v with
  | Text _ | Image _ => []
  | Link _ body => v :: flat_map cards body
  | Heading _ _ body | Strip _ body | Block _ _ body => flat_map cards body
  end.

(** The headings of a view, in document order. *)
Fixpoint headings (v : View) : list View :=
  match v with
  | Text _ | Image _ => []
  | Heading _ _ body => v :: flat_map headings body
  | Link _ body | Strip _ body | Block _ _ body => flat_map headings body
  end.

(** The text of a view, in document order. *)
Fixpoint textContent (v : View) : list JS.Value :=
  match v with
  | Text content => [content]
  | Image _ => []
  | Link _ body | Heading _ _ body | Strip _ body | Block _ _ body =>
      flat_map textContent body
  end.

(** The images of a view, in document order. *)
Fixpoint images (v : View) : list JS.Value :=
  match v with
  | Text _ => []
  | Image src => [src]
  | Link _ body | Heading _ _ body | Strip _ body | Block _ _ body =>
      flat_map images body
  end.

(** The target of a link ([undefined] on anything else). *)
Definition linkTarget (v : View) : JS.Value :=
  match v with
  | Link href _ => href
  | _ => JS.Undefined
  end.

(** ** The components the module imports *)

(** Modelled from the spec: [src/components/ImageStrip] is not among the
    sources.  Section 4.2: "render an ordered sequence of ContentItem as a
    horizontally arranged set of clickable cards, each showing a thumbnail
    image and a title, linking to the destination URL"; "output is one card
    per item, each an independent navigation link; no item transformation,
    filtering, or sorting". *)
Definition card (item : JS.Object) : View :=
  Link (JS.get "url" item)
       [Image (JS.get "thumbnail" item); Text (JS.get "title" item)].

Definition ImageStrip (props : ImageStripProps) : View :=
  Strip (className props) (map card (items props)).

(** Modelled from the spec: [src/components/Section] is not among the
    sources.  Section 4.1: "accepts a background selector (a function of a
    theme value), a title string, a title-size token, a boolean for
    centering the header, and a padding-size token; renders a heading
    followed by its children". *)
Definition sectionHeading (props : SectionProps) : View :=
  Heading (titleSize props) (centeredHeader props) [Text (JS.Str (title props))].

Definition Section (theme : Theme) (props : SectionProps) (children : list View) : View :=
  Block (background props theme) (padding props) (sectionHeading props :: children).

(** [styled(Base)`css`] of styled-components: the base component, rendered
    with the same props and the rule set added to its class names. *)
Definition styled (Base : ImageStripProps -> View) (css : string)
  : ImageStripProps -> View :=
  fun props =>
    Base {| items := items props; className := className props ++ [css] |}.

(** [const CenteredImageStrip = styled(ImageStrip)`text-align: center;`]. *)
Definition CenteredImageStrip : ImageStripProps -> View :=
  styled ImageStrip "
  text-align: center;
".

(** Rendering an element tree under a theme: each element is replaced by
    what its component returns. *)
Fixpoint render (theme : Theme) (e : Element) : View :=
  match e with
  | SectionElement props children => Section theme props (map (render theme) children)
  | CenteredImageStripElement props => CenteredImageStrip props
  end.

(** One render of the page section: invoke the component, render what it
    returns.  The result and the world left behind. *)
Definition renderLatest (theme : Theme) (arguments : list JS.Value) (w : World)
  : View * World :=
  let (e, w') := runState (LatestUpdateSection arguments) w in
  (render theme e, w').

(** ** Calendar dates *)

(** Dates as they are written in the front matter and in the blog slugs,
    [YYYY-MM-DD], and the Gregorian calendar they are read against. *)
Module Date.

Record t : Type := mk { year : Z; month : Z; day : Z }.

Definition isLeap (y : Z) : bool :=
  ((y mod 4 =? 0) && (negb (y mod 100 =? 0) || (y mod 400 =? 0)))%Z.

Definition daysIn (y m : Z) : Z :=
  match m with
  | 1 | 3 | 5 | 7 | 8 | 10 | 12 => 31
  | 4 | 6 | 9 | 11 => 30
  | 2 => if isLeap y then 29 else 28
  | _ => 0
  end%Z.

(** A day that exists in the Gregorian calendar. *)
Definition valid (d : t) : bool :=
  ((1 <=? month d) && (month d <=? 12) &&
   (1 <=? day d) && (day d <=? daysIn (year d) (month d)))%Z.

Definition digit (c : ascii) : option Z :=
  let n := Z.of_N (N_of_ascii c) in
  if ((48 <=? n) && (n <=? 57))%Z then Some (n - 48)%Z else None.

(** A run of decimal digits, read left to right. *)
Fixpoint digits (s : string) (acc : Z) : option Z :=
  match s with
  | EmptyString => Some acc
  | String c rest =>
      match digit c with
      | Some d => digits rest (10 * acc + d)%Z
      | None => None
      end
  end.

(** A non-empty run of decimal digits. *)
Definition number (s : string) : option Z :=
  match s with
  | EmptyString => None
  | _ => digits s 0%Z
  end.

(** [YYYY-MM-DD], and only for a day that exists. *)
Definition parse (s : string) : option t :=
  if (String.length s =? 10)%nat
     && String.eqb (substring 4 1 s) "-"
     && String.eqb (substring 7 1 s) "-"
  then
    match number (substring 0 4 s), number (substring 5 2 s), number (substring 8 2 s) with
    | Some y, Some m, Some d =>
        let date := mk y m d in
        if valid date then Some date else None
    | _, _, _ => None
    end
  else None.

(** Strictly earlier. *)
Definition ltb (a b : t) : bool :=
  ((year a <? year b)
   || ((year a =? year b) && ((month a <? month b)
                              || ((month a =? month b) && (day a <? day b)))))%Z.

Definition later (a b : t) : Prop := ltb b a = true.

End Date.

(** ** Front matter of the blog documents *)

(** The documents are read by the site generator, which is outside the
    repository; what the repository fixes is the format of the block that
    opens each document: a line [---], lines [key: value], a line [---]. *)
Module FrontMatter.

Fixpoint trimLeft (s : string) : string :=
  match s with
  | String " " rest => trimLeft rest
  | _ => s
  end.

(** [key: value], split at the first colon. *)
Fixpoint splitField (line : string) : option (string * string) :=
  match line with
  | EmptyString => None
  | String c rest =>
      if Ascii.eqb c ":" then Some (EmptyString, trimLeft rest)
      else match splitField rest with
           | Some (k, v) => Some (String c k, v)
           | None => None
           end
  end.

(** The fields up to the closing [---]; [None] when a line is not a field
    or the block is never closed. *)
Fixpoint fields (lines : list string) : option (list (string * string)) :=
  match lines with
  | [] => None
  | line :: rest =>
      if String.eqb line "---" then Some []
      else match splitField line, fields rest with
           | Some f, Some fs => Some (f :: fs)
           | _, _ => None
           end
  end.

(** A document is its lines; the front matter is the block between the
    opening [---] on the first line and the next [---]. *)
Definition parse (document : list string) : option (list (string * string)) :=
  match document with
  | first :: rest => if String.eqb first "---" then fields rest else None
  | [] => None
  end.

Fixpoint lookup (k : string) (fm : list (string * string)) : option string :=
  match fm with
  | [] => None
  | (k', v) :: rest => if String.eqb k k' then Some v else lookup k rest
  end.

(** The schema of an article. *)
Definition schema : list string :=
  ["title"; "description"; "thumbnail"; "author"; "date"].

(** The publish date of a document that carries the schema. *)
Definition publishDate (document : list string) : option Date.t :=
  match parse document with
  | Some fm =>
      if list_eq_dec string_dec (map fst fm) schema
      then match lookup "date" fm with
           | Some d => Date.parse d
           | None => None
           end
      else None
  | None => None
  end.

End FrontMatter.

(** The first lines of the three documents among the sources, through the
    blank line that follows the front matter. *)

(** [src/blog/data-skipping/index.mdx] *)
Definition blog_data_skipping : list string :=
  [ "---";
    "title: Data Skipping with Delta Lake";
    "description: Learn how to use Delta Lake for advanced data skipping";
    "thumbnail: ./thumbnail.png";
    "author: Avril Aysha";
    "date: 2025-01-03";
    "---";
    "" ].

(** [src/blog/2023-06-03-delta-lake-z-order/index.mdx] *)
Definition blog_delta_lake_z_order : list string :=
  [ "---";
    "title: Delta Lake Z Order";
    "description: This post explains how to use Delta Lake Z Order to make your queries run faster";
    "thumbnail: ./thumbnail.png";
    "author: Matthew Powers";
    "date: 2023-06-03";
    "---";
    "" ].

(** The document on Apache Sedona (its path is not recorded). *)
Definition blog_apache_sedona : list string :=
  [ "---";
    "title: Working with Apache Sedona";
    "description: Learn how to use Apache Sedona with Delta Lake";
    "thumbnail: ./thumbnail.png";
    "author: Avril Aysha";
    "date: 2025-01-19";
    "---";
    "" ].

Definition corpus : list (list string) :=
  [ blog_data_skipping; blog_delta_lake_z_order; blog_apache_sedona ].

(** ** Content items and their links *)

(** [s.endsWith(suffix)]. *)
Definition endsWith (suffix s : string) : bool :=
  (String.length suffix <=? String.length s)%nat
  && String.eqb (substring (String.length s - String.length suffix)
                           (String.length suffix) s) suffix.

(** A link that leaves the site: it names a scheme or a host. *)
Definition external (url : string) : bool :=
  prefix "http://" url || prefix "https://" url || prefix "//" url.

(** The date a blog slug starts with: [/blog/YYYY-MM-DD-...]. *)
Definition slugDate (url : string) : option Date.t :=
  if prefix "/blog/" url then Date.parse (substring 6 10 url) else None.

Definition urlDate (item : JS.Object) : option Date.t :=
  match JS.get "url" item with
  | JS.Str url => slugDate url
  | _ => None
  end.

Definition nonEmpty (v : JS.Value) : bool :=
  match v with
  | JS.Str s => negb (String.eqb s "")
  | _ => false
  end.

(** The invariant of a content item: a title and a destination, neither
    empty. *)
Definition wellFormedItem (item : JS.Object) : bool :=
  nonEmpty (JS.get "title" item) && nonEmpty (JS.get "url" item).

(** ** The imports, the histories and the links, looked at more closely *)

(** The five image imports of the module, in the order they are written
    (lines 5 to 9). *)
Definition imports : list JS.Value :=
  [ schemaEnforcement; thumbnailDeltaSharingCDF; versionPandasDataset;
    howToCreateDeltaLakeTable; pysparkSaveModes ].

Definition isInvoke (ev : Event) : bool :=
  match ev with
  | Invoke _ => true
  | _ => false
  end.

(** A history with the invocations of the component taken out. *)
Definition hostOnly (history : list Event) : list Event :=
  filter (fun ev => negb (isInvoke ev)) history.

(** A character a path can hold as it is: a lower-case letter, a digit,
    [-], [.] or [/]. *)
Definition plainPathChar (c : ascii) : bool :=
  let n := N_of_ascii c in
  ((97 <=? n) && (n <=? 122) || (48 <=? n) && (n <=? 57)
   || (n =? 45) || (n =? 46) || (n =? 47))%N.

Fixpoint allChars (p : ascii -> bool) (s : string) : bool :=
  match s with
  | EmptyString => true
  | String c rest => p c && allChars p rest
  end.

Fixpoint countChar (c : ascii) (s : string) : nat :=
  match s with
  | EmptyString => 0
  | String c' rest => (if Ascii.eqb c c' then 1 else 0) + countChar c rest
  end.

(** * Properties *)

(** ** The component and the module state *)

Lemma LatestUpdateSection_run (arguments : list JS.Value) (w : World) :
  runState (LatestUpdateSection arguments) w =
  (SectionElement
     {| background := fun theme => bg (light theme);
        title := "The Latest"; titleSize := "h5";
        centeredHeader := true; padding := "xxxl" |}
     [CenteredImageStripElement {| items := module_updates w; className := [] |}],
   w).
Proof. reflexivity. Qed.

Lemma LatestUpdateSection_reads_only (arguments : list JS.Value) (w : World) :
  execState (LatestUpdateSection arguments) w = w.
Proof. reflexivity. Qed.

Lemma step_module_updates (w : World) (ev : Event) :
  module_updates (step w ev) = module_updates w.
Proof. destruct ev; reflexivity. Qed.

Lemma run_module_updates (history : list Event) :
  forall w, module_updates (run history w) = module_updates w.
Proof.
  unfold run.
  induction history as [|ev history IH]; intros w; cbn [fold_left].
  - reflexivity.
  - rewrite IH. apply step_module_updates.
Qed.

Lemma run_loaded (history : list Event) (now seed : Z) :
  module_updates (run history (load now seed)) = updates.
Proof. rewrite run_module_updates. reflexivity. Qed.

Lemma renderLatest_run (theme : Theme) (arguments : list JS.Value) (w : World) :
  renderLatest theme arguments w =
  (Section theme
     {| background := fun theme => bg (light theme);
        title := "The Latest"; titleSize := "h5";
        centeredHeader := true; padding := "xxxl" |}
     [CenteredImageStrip {| items := module_updates w; className := [] |}],
   w).
Proof. reflexivity. Qed.

(** ** Cards of a strip *)

Lemma cards_of_cards (l : list JS.Object) :
  flat_map cards (map card l) = map card l.
Proof.
  induction l as [|item l IH]; cbn [map flat_map].
  - reflexivity.
  - rewrite IH. reflexivity.
Qed.

Lemma headings_of_cards (l : list JS.Object) :
  flat_map headings (map card l) = [].
Proof.
  induction l as [|item l IH]; cbn [map flat_map].
  - reflexivity.
  - rewrite IH. reflexivity.
Qed.

Lemma styled_items (Base : ImageStripProps -> View) (css : string) (props : ImageStripProps) :
  styled Base css props =
  Base {| items := items props; className := className props ++ [css] |}.
Proof. reflexivity. Qed.

Lemma cards_ImageStrip (props : ImageStripProps) :
  cards (ImageStrip props) = map card (items props).
Proof. unfold ImageStrip. cbn [cards]. apply cards_of_cards. Qed.

Lemma cards_CenteredImageStrip (props : ImageStripProps) :
  cards (CenteredImageStrip props) = map card (items props).
Proof.
  unfold CenteredImageStrip. rewrite styled_items, cards_ImageStrip.
  reflexivity.
Qed.

Lemma cards_Section (theme : Theme) (props : SectionProps) (children : list View) :
  cards (Section theme props children) = flat_map cards children.
Proof. reflexivity. Qed.

Lemma headings_CenteredImageStrip (props : ImageStripProps) :
  headings (CenteredImageStrip props) = [].
Proof.
  unfold CenteredImageStrip. rewrite styled_items. unfold ImageStrip.
  cbn [headings items]. apply headings_of_cards.
Qed.

(** ** Dates *)

Lemma Date_parse_valid (s : string) (d : Date.t) :
  Date.parse s = Some d -> Date.valid d = true.
Proof.
  unfold Date.parse.
  destruct (_ && _ && _); [|discriminate].
  destruct (Date.number _) as [y|]; [|discriminate].
  destruct (Date.number _) as [m|]; [|discriminate].
  destruct (Date.number _) as [dd|]; [|discriminate].
  destruct (Date.valid _) eqn:V; [|discriminate].
  intros [= <-]. exact V.
Qed.

Lemma Date_ltb_iff (a b : Date.t) :
  Date.ltb a b = true <->
  (Date.year a < Date.year b
   \/ (Date.year a = Date.year b
       /\ (Date.month a < Date.month b
           \/ (Date.month a = Date.month b /\ Date.day a < Date.day b))))%Z.
Proof.
  unfold Date.ltb.
  rewrite !orb_true_iff, !andb_true_iff, !orb_true_iff, !andb_true_iff.
  rewrite !Z.ltb_lt, !Z.eqb_eq. reflexivity.
Qed.

Lemma Date_ltb_irrefl (a : Date.t) : Date.ltb a a = false.
Proof.
  destruct (Date.ltb a a) eqn:E; [|reflexivity].
  apply Date_ltb_iff in E. lia.
Qed.

Lemma Date_ltb_trans (a b c : Date.t) :
  Date.ltb a b = true -> Date.ltb b c = true -> Date.ltb a c = true.
Proof. rewrite !Date_ltb_iff. lia. Qed.

Lemma Date_valid_day_bounds (d : Date.t) :
  Date.valid d = true -> (1 <= Date.month d <= 12 /\ 1 <= Date.day d <= 31)%Z.
Proof.
  unfold Date.valid. rewrite !andb_true_iff, !Z.leb_le.
  intros [[[Hm1 Hm2] Hd1] Hd2].
  assert (Date.daysIn (Date.year d) (Date.month d) <= 31)%Z.
  { unfold Date.daysIn.
    destruct (Date.month d) as [|p|p]; try lia.
    do 4 (try destruct p as [p|p|]; try lia);
      destruct (Date.isLeap _); lia. }
  lia.
Qed.

(** ** Small runs *)

Example get_missing_property :
  JS.get "url" [("title", JS.Str "t")] = JS.Undefined.
Proof. reflexivity. Qed.

Example strip_of_nothing :
  CenteredImageStrip {| items := []; className := [] |}
  = Strip ["
  text-align: center;
"] [].
Proof. reflexivity. Qed.

Example strip_keeps_url_as_written :
  map linkTarget
      (cards (ImageStrip
                {| items := [ [("title", JS.Str "b"); ("url", JS.Str "/B%20b?x=1#y")];
                              [("title", JS.Str "a"); ("url", JS.Str "https://a.example/no-slash")] ];
                   className := [] |}))
  = [JS.Str "/B%20b?x=1#y"; JS.Str "https://a.example/no-slash"].
Proof. reflexivity. Qed.

Example date_leap_day :
  Date.parse "2024-02-29" = Some (Date.mk 2024 2 29)
  /\ Date.parse "2023-02-29" = None
  /\ Date.parse "2023-6-03" = None
  /\ Date.parse "1900-02-29" = None.
Proof. repeat split. Qed.

Example front_matter_unclosed :
  FrontMatter.parse ["---"; "title: t"; "date: 2025-01-03"] = None.
Proof. reflexivity. Qed.

Example slug_without_date :
  slugDate "/blog/create-delta-lake-tables/" = None.
Proof. reflexivity. Qed.

(** ** The strip renderer *)

(** C1. For every list of content items handed to the strip renderer, as
    [ImageStrip] or as its centred variant, the links of the output are
    exactly the cards of the items: as many as there are items, the i-th
    card made from the i-th item and from nothing else, each showing that
    item's own title and thumbnail.  Nothing is dropped, added, reordered
    or rewritten. *)
Theorem strip_one_card_per_item (props : ImageStripProps) :
  cards (ImageStrip props) = map card (items props)
  /\ cards (CenteredImageStrip props) = map card (items props)
  /\ length (cards (CenteredImageStrip props)) = length (items props)
  /\ (forall i : nat,
        nth_error (cards (CenteredImageStrip props)) i
        = option_map card (nth_error (items props) i))
  /\ map textContent (cards (CenteredImageStrip props))
     = map (fun item => [JS.get "title" item]) (items props)
  /\ map images (cards (CenteredImageStrip props))
     = map (fun item => [JS.get "thumbnail" item]) (items props).
Proof.
  rewrite cards_ImageStrip, cards_CenteredImageStrip.
  repeat split.
  - apply length_map.
  - intros i. apply nth_error_map.
  - rewrite map_map. reflexivity.
  - rewrite map_map. reflexivity.
Qed.

(** C2. The link targets of the rendered cards are, in order, the [url]
    values of the items, as they are: the renderer puts [item.url] into the
    link and applies nothing to it. *)
Theorem card_link_is_item_url (props : ImageStripProps) :
  map linkTarget (cards (ImageStrip props)) = map (JS.get "url") (items props)
  /\ map linkTarget (cards (CenteredImageStrip props))
     = map (JS.get "url") (items props).
Proof.
  rewrite cards_ImageStrip, cards_CenteredImageStrip, map_map.
  split; reflexivity.
Qed.

(** ** The section renderer *)

(** C3. For every theme, title and list of children, the section renders
    its heading, whose text is the title, and then the children, all of
    them, unchanged and in order.  The only heading and the only text it
    adds are that one.  With no children there is no card and the heading
    is still there; with a strip as the only child the heading is the only
    heading and the cards are the strip's.  On the page, the one heading
    is "The Latest". *)
Theorem section_heading_then_children
  (theme : Theme) (props : SectionProps) (children : list View)
  (arguments : list JS.Value) (history : list Event) (now seed : Z) :
  Section theme props children
  = Block (background props theme) (padding props) (sectionHeading props :: children)
  /\ textContent (sectionHeading props) = [JS.Str (title props)]
  /\ headings (Section theme props children)
     = sectionHeading props :: flat_map headings children
  /\ textContent (Section theme props children)
     = JS.Str (title props) :: flat_map textContent children
  /\ cards (Section theme props children) = flat_map cards children
  /\ headings (Section theme props []) = [sectionHeading props]
  /\ cards (Section theme props []) = []
  /\ (forall strip : ImageStripProps,
        headings (Section theme props [CenteredImageStrip strip]) = [sectionHeading props]
        /\ cards (Section theme props [CenteredImageStrip strip]) = map card (items strip))
  /\ headings (fst (renderLatest theme arguments (run history (load now seed))))
     = [Heading "h5" true [Text (JS.Str "The Latest")]].
Proof.
  rewrite renderLatest_run, run_loaded.
  repeat split; try reflexivity.
  - cbn [Section headings flat_map sectionHeading app].
    rewrite headings_CenteredImageStrip. reflexivity.
  - cbn [Section cards flat_map sectionHeading app].
    rewrite cards_CenteredImageStrip. apply app_nil_r.
Qed.

(** ** The page configuration *)

(** C4. Rendering the section from the loaded module, under any theme,
    with any arguments, at any time and after any history, gives five
    cards whose titles and link targets are the five configured pairs in
    declaration order. *)
Theorem latest_renders_configured_cards
  (theme : Theme) (arguments : list JS.Value) (history : list Event) (now seed : Z) :
  map (fun c => (textContent c, linkTarget c))
      (cards (fst (renderLatest theme arguments (run history (load now seed)))))
  = [ ([JS.Str "Delta Lake Schema Enforcement"],
       JS.Str "/blog/2022-11-16-delta-lake-schema-enforcement/");
      ([JS.Str "Why PySpark append and overwrite write operations are safer in Delta Lake than Parquet tables"],
       JS.Str "/blog/2022-11-01-pyspark-save-mode-append-overwrite-error/");
      ([JS.Str "How to Create Delta Lake tables"],
       JS.Str "/blog/2022-10-25-create-delta-lake-tables/");
      ([JS.Str "How to Version Your Data with pandas and Delta Lake"],
       JS.Str "/blog/2022-10-15-version-pandas-dataset/");
      ([JS.Str "Sharing a Delta Table’s Change Data Feed with Delta Sharing 0.5.0"],
       JS.Str "/blog/2022-10-10-delta-sharing-0-5-0-released/") ]
  /\ length (cards (fst (renderLatest theme arguments (run history (load now seed))))) = 5.
Proof.
  rewrite renderLatest_run, run_loaded. cbn [fst].
  rewrite cards_Section. cbn [flat_map].
  rewrite app_nil_r, cards_CenteredImageStrip.
  split; reflexivity.
Qed.

(** ** Determinism *)

Section Determinism.

(** The site generator's serialiser: whatever bytes it writes, it writes
    them from the rendered view. *)
Variable renderToStaticMarkup : View -> string.

(** C5. Two renders of the same configuration (the loaded module, a theme,
    the arguments) give the same bytes, whatever the clock and the random
    source hold at either render and whatever happened before; rendering
    again right after a render gives the same bytes again; and a render
    leaves the world as it found it. *)
Theorem rendering_is_deterministic
  (theme : Theme) (arguments : list JS.Value)
  (history1 history2 : list Event) (now1 seed1 now2 seed2 : Z) (w : World) :
  renderToStaticMarkup
    (fst (renderLatest theme arguments (run history1 (load now1 seed1))))
  = renderToStaticMarkup
      (fst (renderLatest theme arguments (run history2 (load now2 seed2))))
  /\ renderToStaticMarkup
       (fst (renderLatest theme arguments (snd (renderLatest theme arguments w))))
     = renderToStaticMarkup (fst (renderLatest theme arguments w))
  /\ snd (renderLatest theme arguments w) = w
  /\ fst (renderLatest theme arguments w)
     = fst (renderLatest theme arguments
              {| clock := now1; entropy := seed1; module_updates := module_updates w |}).
Proof.
  rewrite !renderLatest_run. cbn [fst snd].
  rewrite !run_loaded. cbn [module_updates].
  repeat split.
Qed.

End Determinism.

(** ** Invariants of the configuration *)

(** C6. Every record of [updates] has a non-empty title and a non-empty
    url, and stays so: invoking the component returns the world it was
    given, so after any history the module still holds the array as it was
    written, with every record well formed. *)
Theorem content_items_well_formed_and_immutable
  (history : list Event) (now seed : Z) (arguments : list JS.Value) (w : World) :
  Forall (fun item => wellFormedItem item = true) updates
  /\ execState (LatestUpdateSection arguments) w = w
  /\ module_updates (run history (load now seed)) = updates
  /\ Forall (fun item => wellFormedItem item = true)
            (module_updates (run history (load now seed))).
Proof.
  assert (H : Forall (fun item => wellFormedItem item = true) updates)
    by (repeat constructor).
  rewrite run_loaded. repeat split; assumption.
Qed.

(** C7. Each document of the corpus, whatever body follows its first
    lines, has a front matter made of exactly the fields title,
    description, thumbnail, author and date, in that order, and its date
    field reads as a day of the calendar. *)
Theorem corpus_front_matter_valid :
  Forall
    (fun head =>
       forall body : list string,
       exists (fm : list (string * string)) (written : string) (d : Date.t),
         FrontMatter.parse (head ++ body) = Some fm
         /\ map fst fm = FrontMatter.schema
         /\ FrontMatter.lookup "date" fm = Some written
         /\ Date.parse written = Some d
         /\ Date.valid d = true
         /\ FrontMatter.publishDate (head ++ body) = Some d)
    corpus.
Proof.
  repeat constructor; intros body;
    do 3 eexists; (split; [reflexivity|]);
    (split; [reflexivity|]); (split; [reflexivity|]);
    (split; [reflexivity|]); split; reflexivity.
Qed.

(** C8. Every record of [updates] has exactly the properties title,
    thumbnail and url; the title is a string, the thumbnail an imported
    asset, and the url a string that starts with [/blog/], ends with [/]
    and does not leave the site. *)
Theorem updates_records_shape :
  Forall
    (fun item =>
       JS.keys item = ["title"; "thumbnail"; "url"]
       /\ (exists t, JS.get "title" item = JS.Str t)
       /\ (exists a, JS.get "thumbnail" item = JS.Asset a)
       /\ (exists u, JS.get "url" item = JS.Str u
                     /\ prefix "/blog/" u = true
                     /\ endsWith "/" u = true
                     /\ external u = false))
    updates.
Proof.
  repeat constructor; eexists; try reflexivity; repeat split; reflexivity.
Qed.

(** C9. The dates the five url slugs start with are 2022-11-16,
    2022-11-01, 2022-10-25, 2022-10-15 and 2022-10-10: each is later than
    every one after it.  The component hands the records to the strip in
    that order. *)
Theorem updates_newest_first (arguments : list JS.Value) (history : list Event) (now seed : Z) :
  map urlDate updates
  = [ Some (Date.mk 2022 11 16); Some (Date.mk 2022 11 1); Some (Date.mk 2022 10 25);
      Some (Date.mk 2022 10 15); Some (Date.mk 2022 10 10) ]
  /\ StronglySorted Date.later
       [ Date.mk 2022 11 16; Date.mk 2022 11 1; Date.mk 2022 10 25;
         Date.mk 2022 10 15; Date.mk 2022 10 10 ]
  /\ evalState (LatestUpdateSection arguments) (run history (load now seed))
     = SectionElement
         {| background := fun theme => bg (light theme);
            title := "The Latest"; titleSize := "h5";
            centeredHeader := true; padding := "xxxl" |}
         [CenteredImageStripElement {| items := updates; className := [] |}].
Proof.
  split; [reflexivity|]. split.
  - repeat constructor.
  - unfold evalState. rewrite LatestUpdateSection_run, run_loaded. reflexivity.
Qed.

(** C10. Whatever is passed to [LatestUpdateSection], and whenever, it
    returns the same element: a Section titled "The Latest" with title
    size h5, a centred header, padding xxxl and the background
    [theme.light.bg], whose only child is the centred image strip over the
    five records of [updates]. *)
Theorem latest_section_is_constant
  (arguments1 arguments2 : list JS.Value) (history : list Event) (now seed : Z)
  (theme : Theme) :
  evalState (LatestUpdateSection arguments1) (run history (load now seed))
  = SectionElement
      {| background := fun theme => bg (light theme);
         title := "The Latest"; titleSize := "h5";
         centeredHeader := true; padding := "xxxl" |}
      [CenteredImageStripElement {| items := updates; className := [] |}]
  /\ evalState (LatestUpdateSection arguments1) (run history (load now seed))
     = evalState (LatestUpdateSection arguments2) (run history (load now seed))
  /\ length updates = 5
  /\ match evalState (LatestUpdateSection arguments1) (run history (load now seed)) with
     | SectionElement props _ => background props theme = bg (light theme)
     | _ => False
     end.
Proof.
  unfold evalState. rewrite !LatestUpdateSection_run, run_loaded. cbn [fst].
  repeat split.
Qed.

(** * Further properties of the module *)

(** ** Imports and thumbnails *)

(** X1. The thumbnails of the five records are the five imported images,
    each used once: no import is left unused, no record shows an image
    that was not imported, and no two records share an image or an image
    file. *)
Theorem thumbnails_are_the_imports :
  Permutation (map (JS.get "thumbnail") updates) imports
  /\ NoDup imports
  /\ NoDup (map (JS.get "thumbnail") updates)
  /\ Forall (fun v => exists file, v = JS.Asset file /\ endsWith ".png" file = true) imports.
Proof.
  assert (P : Permutation (map (JS.get "thumbnail") updates) imports).
  { cbn. apply perm_skip.
    change [thumbnailDeltaSharingCDF; versionPandasDataset;
            howToCreateDeltaLakeTable; pysparkSaveModes]
      with (rev [pysparkSaveModes; howToCreateDeltaLakeTable;
                 versionPandasDataset; thumbnailDeltaSharingCDF]).
    apply Permutation_rev. }
  assert (N : NoDup imports).
  { unfold imports.
    repeat (constructor; [cbn; intuition discriminate|]). constructor. }
  repeat split.
  - exact P.
  - exact N.
  - apply (Permutation_NoDup (Permutation_sym P) N).
  - repeat constructor; eexists; split; reflexivity.
Qed.

(** ** Invocations in a history *)

(** X2. Invoking the component leaves no trace: whatever array the module
    holds and whatever the history, taking every invocation out of the
    history gives the same final world; the module's array at the end is
    the one at the start; and an invocation after the history returns what
    an invocation before it returns, whatever the arguments of either. *)
Theorem invocations_leave_no_trace
  (history : list Event) (w : World) (arguments1 arguments2 : list JS.Value) :
  run history w = run (hostOnly history) w
  /\ module_updates (run history w) = module_updates w
  /\ evalState (LatestUpdateSection arguments1) (run history w)
     = evalState (LatestUpdateSection arguments2) w.
Proof.
  split; [|split].
  - unfold run, hostOnly. revert w.
    induction history as [|ev history IH]; intros w; [reflexivity|].
    destruct ev; cbn [filter isInvoke negb fold_left].
    + apply IH.
    + apply IH.
    + rewrite <- IH. reflexivity.
  - apply run_module_updates.
  - unfold evalState. rewrite !LatestUpdateSection_run. cbn [fst].
    rewrite run_module_updates. reflexivity.
Qed.

(** ** The links of the page *)

(** X3. No two records of [updates] have the same url and no two have the
    same title: a card is identified by its link alone, and by its title
    alone. *)
Theorem updates_links_and_titles_distinct :
  NoDup (map (JS.get "url") updates)
  /\ NoDup (map (JS.get "title") updates).
Proof.
  split; cbn; repeat (constructor; [cbn; intuition discriminate|]); constructor.
Qed.

(** X4. Every url of [updates] is written with lower-case letters, digits,
    [-], [.] and [/] only, so nothing in it needs escaping, and it has
    exactly three slashes: [/blog/], one path segment, and the closing
    [/]. *)
Theorem updates_urls_are_plain_paths :
  Forall
    (fun item =>
       exists u, JS.get "url" item = JS.Str u
                 /\ allChars plainPathChar u = true
                 /\ countChar "/" u = 3)
    updates.
Proof.
  repeat constructor; eexists; repeat split; reflexivity.
Qed.

(** ** The page against the corpus *)

(** X5. Every document of the corpus is dated later than every record of
    [updates]: each of the three front-matter dates comes after each of the
    five slug dates. *)
Theorem corpus_is_newer_than_updates :
  Forall
    (fun document =>
       exists published,
         FrontMatter.publishDate document = Some published
         /\ Forall
              (fun item =>
                 exists linked,
                   urlDate item = Some linked /\ Date.later published linked)
              updates)
    corpus.
Proof.
  repeat constructor; eexists; (split; [reflexivity|]);
    repeat constructor; eexists; split; reflexivity.
Qed.
